(** * The extraction server (backend/server/main.py)

    A shallow embedding of the request pipeline of [server/main.py]:
    the request model [ExtractRequest] with its schema validator, the
    chain [extraction_runnable] served under [/extract_text], and the
    endpoint [extract_using_existing_extractor] served under [/extract].

    Python exceptions are values of [exn]; a computation is a function
    from the log of collaborator calls made so far to an outcome and the
    extended log, so that the order and the number of calls to the schema
    validator, the prompt builder, the converter, the model and the
    database can be stated. *)

From stdpp Require Import base option list strings gmap.

(** ** JSON values

    [Dict[str, Any]] is a finite map from strings to JSON values.  Numbers
    are restricted to integers: no claim looks inside a number. *)

#[local] Set Warnings "-register-all".

Inductive json : Type :=
| JNull
| JBool (b : bool)
| JNum (n : Z)
| JStr (s : string)
| JArr (items : list json)
| JObj (fields : gmap string json).

Abbreviation Dict := (gmap string json).

(** ** Exceptions

    [jsonschema.exceptions] declares [ValidationError] and [SchemaError] as
    two separate subclasses of its private base [_Error]; neither is a
    subclass of the other.  [HTTPException] is fastapi's, [AssertionError]
    is raised by a failing [assert], and [UpstreamError] stands for whatever
    the model client raises. *)

Inductive exn : Type :=
| ValidationError (message : string)
| SchemaError (message : string)
| HTTPException (status_code : Z) (detail : string)
| AssertionError
| UpstreamError (detail : string).

(** [except exceptions.ValidationError as e]: the clause matches instances
    of [ValidationError] only, and binds the exception, whose [message] the
    handler reads. *)
Definition as_ValidationError (e : exn) : option string :=
  match e with
  | ValidationError message => Some message
  | _ => None
  end.

(** The two error kinds of the boundary: an invalid schema is reported with
    status 422, an unknown extractor with status 404. *)
Definition is_SchemaInvalid (e : exn) : bool :=
  match e with
  | HTTPException 422 _ => true
  | _ => false
  end.

Definition is_ExtractorNotFound (e : exn) : bool :=
  match e with
  | HTTPException 404 _ => true
  | _ => false
  end.

(** ** Data model *)

(** Modelled from the spec: [extraction.utils.FewShotExample] is not part of
    the sources at hand.  An example is an input text together with the
    structured output expected for it. *)
Record FewShotExample : Type := mkFewShotExample {
  example_input : string;
  example_output : json;
}.

(** Modelled from the spec: the function descriptor returned by
    [extraction.utils.convert_json_schema_to_openai_schema], which is not part
    of the sources at hand: a name, a description (absent when the schema has
    none) and the parameter schema. *)
Record FunctionSchema : Type := mkFunctionSchema {
  fn_name : json;
  fn_description : option json;
  fn_parameters : Dict;
}.

(** Messages of a chat prompt.  The system message keeps its three parts
    apart: the fixed directive, the supplemental instructions, and the name
    of the entity to extract. *)
Inductive message : Type :=
| SystemMessage (directive : string) (supplement : option string)
    (entity : option json)
| HumanMessage (content : string)
| AIMessage (function_call : json).

(** A prompt template: fixed messages, and slots filled from the variables
    given at call time (here only [text]). *)
Inductive message_template : Type :=
| Fixed (m : message)
| HumanSlot (variable : string).

Record ExtractRequest : Type := mkExtractRequest {
  text : string;
  json_schema : Dict;
  instructions : option string;
  examples : option (list FewShotExample);
}.

Record ExtractResponse : Type := mkExtractResponse {
  extracted : json;
}.

Definition UUID := N.

(** The field [text] is [file_text] here, the projection [text] being that
    of [ExtractRequest]. *)
Record ExtractFromFileRequest : Type := mkExtractFromFileRequest {
  extractor_id : UUID;
  file_text : string;
}.

(** Modelled from the spec: [db.models.Extractor] is not part of the sources
    at hand.  A stored extractor is a schema, instructions and examples under
    a unique identifier; [stored_examples] is its attribute [examples]. *)
Record Extractor : Type := mkExtractor {
  uuid : UUID;
  schema : Dict;
  instruction : option string;
  stored_examples : list FewShotExample;
}.

(** ** Collaborator calls *)

Inductive event : Type :=
| EvCheckSchema (checked : Dict)
| EvPrompt (supplement : option string)
    (shots : option (list FewShotExample)) (name : json)
| EvConvert (converted : Dict)
| EvInvoke (functions : list FunctionSchema) (prompt : list message)
| EvQuery (id : UUID).

Definition is_check_schema (ev : event) : bool :=
  match ev with EvCheckSchema _ => true | _ => false end.
Definition is_prompt (ev : event) : bool :=
  match ev with EvPrompt _ _ _ => true | _ => false end.
Definition is_convert (ev : event) : bool :=
  match ev with EvConvert _ => true | _ => false end.
Definition is_invoke (ev : event) : bool :=
  match ev with EvInvoke _ _ => true | _ => false end.
Definition is_query (ev : event) : bool :=
  match ev with EvQuery _ => true | _ => false end.

Definition trace := list event.

(** Number of calls of one kind in a log. *)
Definition calls (kind : event → bool) (tr : trace) : nat :=
  length (filter (λ ev, kind ev = true) tr).

(** Every call of kind [p] in the log comes before every call of kind [q]. *)
Definition precedes (p q : event → bool) (tr : trace) : Prop :=
  ∀ i j a b,
    tr !! i = Some a → tr !! j = Some b →
    p a = true → q b = true → i < j.

(** ** The monad of logged, fallible computations *)

Definition M (A : Type) : Type := trace → (exn + A) * trace.

#[global] Instance M_ret : MRet M := λ A x tr, (inr x, tr).

#[global] Instance M_bind : MBind M := λ A B f m tr,
  match m tr with
  | (inl e, tr') => (inl e, tr')
  | (inr x, tr') => f x tr'
  end.

Definition raise {A : Type} (e : exn) : M A := λ tr, (inl e, tr).

Definition log (ev : event) : M unit := λ tr, (inr tt, tr ++ [ev]).

(** [try: body except C as e: handler]: the handler runs when the body
    raises an exception the clause selects; any other exception leaves the
    statement unchanged. *)
Definition try_except {A B : Type} (body : M A)
    (select : exn → option B) (handler : B → M A) : M A := λ tr,
  match body tr with
  | (inl e, tr') =>
      match select e with
      | Some b => handler b tr'
      | None => (inl e, tr')
      end
  | ok => ok
  end.

(** A request is served starting from an empty log. *)
Definition run {A : Type} (m : M A) : (exn + A) * trace := m [].

(** ** The external collaborators

    [metaschema_error] is the first error the Draft 2020-12 metaschema
    validator reports for a schema ([None] when the schema is valid);
    [llm] is the function-calling model behind the runnable; [registry] is
    the extractor table behind the database session. *)
Record World : Type := mkWorld {
  metaschema_error : Dict → option string;
  llm : list FunctionSchema → list message → exn + json;
  registry : UUID → option Extractor;
}.

(** ** The operations *)

Section Server.

Context (W : World).

(** [Draft202012Validator.check_schema] of the jsonschema library: the
    schema is validated against the metaschema of the dialect, and an error
    is raised as [exceptions.SchemaError]. *)
Definition check_schema (s : Dict) : M unit :=
  log (EvCheckSchema s) ;;
  match metaschema_error W s with
  | Some message => raise (SchemaError message)
  | None => mret tt
  end.

(** The error of the boundary for a schema that is not valid. *)
Definition SchemaInvalid (message : string) : exn :=
  HTTPException 422 ("Invalid schema: " +:+ message).

(** Modelled from the spec: [server.validators.validate_json_schema] is not
    part of the sources at hand.  It verifies that the value is a valid
    schema of the dialect, returns nothing on success, and on failure signals
    the schema-invalid error carrying the message of the underlying
    validator. *)
Definition validate_json_schema (s : Dict) : M unit :=
  try_except (check_schema s)
    (λ e, match e with SchemaError message => Some message | _ => None end)
    (λ message, raise (SchemaInvalid message)).

(** [ExtractRequest.validate_schema], the validator of the field
    [json_schema]. *)
Definition validate_schema (v : Dict) : M Dict :=
  validate_json_schema v ;;
  mret v.

(** Construction of an [ExtractRequest]: the field validator runs on the
    schema, and what it raises leaves the constructor. *)
Definition ExtractRequest_init (text : string) (json_schema : Dict)
    (instructions : option string)
    (examples : option (list FewShotExample)) : M ExtractRequest :=
  v ← validate_schema json_schema ;
  mret (mkExtractRequest text v instructions examples).

(** [schema.get("title", "")] *)
Definition schema_title (s : Dict) : json :=
  default (JStr EmptyString) (s !! "title").

Definition extraction_directive : string :=
  "You are a top-tier algorithm for extracting information from text.".

(** [name] is empty when it is the empty string. *)
Definition nonempty_name (name : json) : option json :=
  match name with
  | JStr EmptyString => None
  | _ => Some name
  end.

(** One example rendered as an exchange: the human text, then the
    structured output of the assistant. *)
Definition example_exchange (ex : FewShotExample) : list message_template :=
  [Fixed (HumanMessage (example_input ex));
   Fixed (AIMessage (example_output ex))].

(** Modelled from the spec: [extraction.utils.make_prompt_template] is not
    part of the sources at hand.  The template is the system instruction
    (fixed directive, then the instructions when given, then the name when
    not empty), then every example as an exchange in the given order, then
    the slot of the input text. *)
Definition prompt_template (instructions : option string)
    (examples : option (list FewShotExample)) (name : json)
    : list message_template :=
  Fixed (SystemMessage extraction_directive instructions (nonempty_name name))
  :: (default [] examples ≫= example_exchange)
  ++ [HumanSlot "text"].

Definition make_prompt_template (instructions : option string)
    (examples : option (list FewShotExample)) (name : json)
    : M (list message_template) :=
  log (EvPrompt instructions examples name) ;;
  mret (prompt_template instructions examples name).

(** Binding the variables of a template. *)
Definition format_message (text : string) (t : message_template) : message :=
  match t with
  | Fixed m => m
  | HumanSlot _ => HumanMessage text
  end.

Definition format_messages (prompt : list message_template) (text : string)
    : list message :=
  format_message text <$> prompt.

(** Modelled from the spec:
    [extraction.utils.convert_json_schema_to_openai_schema] is not part of
    the sources at hand.  The name is the [title] of the schema, else the
    empty string; the description is its [description] when there is one;
    the parameters are the schema without these two fields. *)
Definition function_descriptor (s : Dict) : FunctionSchema :=
  {| fn_name := default (JStr EmptyString) (s !! "title");
     fn_description := s !! "description";
     fn_parameters := delete "description" (delete "title" s) |}.

Definition convert_json_schema_to_openai_schema (s : Dict) : M FunctionSchema :=
  log (EvConvert s) ;;
  mret (function_descriptor s).

(** [create_openai_fn_runnable(functions=..., llm=model, prompt=...)] and
    its [invoke]: the prompt is formatted with the input, the model is
    called once with the functions, and the arguments of the function call
    it answers with are the result. *)
Record Runnable : Type := mkRunnable {
  runnable_functions : list FunctionSchema;
  runnable_prompt : list message_template;
}.

Definition create_openai_fn_runnable (functions : list FunctionSchema)
    (prompt : list message_template) : Runnable :=
  mkRunnable functions prompt.

Definition invoke (r : Runnable) (text : string) : M json :=
  let messages := format_messages (runnable_prompt r) text in
  log (EvInvoke (runnable_functions r) messages) ;;
  match llm W (runnable_functions r) messages with
  | inl e => raise e
  | inr arguments => mret arguments
  end.

Definition extraction_runnable (extraction_request : ExtractRequest)
    : M ExtractResponse :=
  let schema := json_schema extraction_request in
  let name := schema_title schema in
  try_except (check_schema schema) as_ValidationError
    (λ message, raise (HTTPException 422 ("Invalid schema: " +:+ message))) ;;
  prompt ←
    make_prompt_template (instructions extraction_request)
      (examples extraction_request) name ;
  openai_function ← convert_json_schema_to_openai_schema schema ;
  let runnable := create_openai_fn_runnable [openai_function] prompt in
  extracted_content ← invoke runnable (text extraction_request) ;
  mret (mkExtractResponse extracted_content).

(** [add_routes(app, extraction_runnable, path="/extract_text", ...)]: the
    body of a call is decoded into an [ExtractRequest], which constructs
    it, and the chain is invoked on the request. *)
Definition extract_text (text : string) (json_schema : Dict)
    (instructions : option string)
    (examples : option (list FewShotExample)) : M ExtractResponse :=
  extraction_request ← ExtractRequest_init text json_schema instructions examples ;
  extraction_runnable extraction_request.

(** [session.query(Extractor).filter(Extractor.uuid == id).scalar()] *)
Definition query_extractor (id : UUID) : M (option Extractor) :=
  log (EvQuery id) ;;
  mret (registry W id).

(** [assert examples == []] *)
Definition assert_empty {A : Type} (l : list A) : M unit :=
  match l with
  | [] => mret tt
  | _ :: _ => raise AssertionError
  end.

Definition extract_using_existing_extractor
    (extract_request : ExtractFromFileRequest) : M ExtractResponse :=
  extractor ← query_extractor (extractor_id extract_request) ;
  match extractor with
  | None => raise (HTTPException 404 "Extractor not found.")
  | Some extractor =>
      let json_schema := schema extractor in
      let examples := stored_examples extractor in
      assert_empty examples ;;
      mret (mkExtractResponse (JStr "placeholder"))
  end.

End Server.

(** ** Observations on a run *)

(** The prompt [extraction_runnable] sends for a request. *)
Definition request_messages (req : ExtractRequest) : list message :=
  format_messages
    (prompt_template (instructions req) (examples req)
       (schema_title (json_schema req)))
    (text req).

(** The calls [extraction_runnable] makes for a request it does not reject. *)
Definition pipeline_calls (req : ExtractRequest) : trace :=
  [EvCheckSchema (json_schema req);
   EvPrompt (instructions req) (examples req) (schema_title (json_schema req));
   EvConvert (json_schema req);
   EvInvoke [function_descriptor (json_schema req)] (request_messages req)].

(** The example exchanges of a prompt: every human message that is followed
    by a structured answer of the assistant, with that answer. *)
Fixpoint exchanges (p : list message) : list (string * json) :=
  match p with
  | HumanMessage input :: AIMessage output :: rest =>
      (input, output) :: exchanges rest
  | _ :: rest => exchanges rest
  | [] => []
  end.

Definition as_exchange (ex : FewShotExample) : string * json :=
  (example_input ex, example_output ex).

Arguments check_schema W s _ /.
Arguments make_prompt_template instructions examples name _ /.
Arguments convert_json_schema_to_openai_schema s _ /.
Arguments invoke W r text _ /.
Arguments query_extractor W id _ /.

(** ** A sample deployment

    A validator that knows the [type] keyword of the metaschema (a type
    given as a string has to be one of the seven simple types), a model that
    always answers with the same arguments, and a registry of two
    extractors. *)

Definition simple_types : list string :=
  ["array"; "boolean"; "integer"; "null"; "number"; "object"; "string"].

Definition sample_metaschema_error (s : Dict) : option string :=
  match s !! "type" with
  | Some (JStr t) =>
      if bool_decide (t ∈ simple_types) then None
      else Some ("'" +:+ t +:+ "' is not valid under any of the given schemas")
  | _ => None
  end.

Definition john : json :=
  JObj (<["name" := JStr "John"]> (<["age" := JNum 30]> ∅)).

Definition person_schema : Dict :=
  <["title" := JStr "Person"]>
  (<["type" := JStr "object"]>
  (<["properties" :=
       JObj (<["name" := JObj (<["type" := JStr "string"]> ∅)]>
            (<["age" := JObj (<["type" := JStr "integer"]> ∅)]> ∅))]>
  (<["required" := JArr [JStr "name"; JStr "age"]]> ∅))).

Definition untitled_schema : Dict := <["type" := JStr "object"]> ∅.

Definition bogus_schema : Dict := <["type" := JStr "bogus"]> ∅.

Definition jane_example : FewShotExample :=
  mkFewShotExample "Jane is 41"
    (JObj (<["name" := JStr "Jane"]> (<["age" := JNum 41]> ∅))).

Definition sample_registry (id : UUID) : option Extractor :=
  match id with
  | 1%N => Some (mkExtractor 1%N person_schema None [])
  | 2%N => Some (mkExtractor 2%N person_schema None [jane_example])
  | _ => None
  end.

Definition sample_world : World :=
  mkWorld sample_metaschema_error (λ _ _, inr john) sample_registry.

Definition person_request : ExtractRequest :=
  mkExtractRequest "John is 30" person_schema None None.

Definition bogus_request : ExtractRequest :=
  mkExtractRequest "John is 30" bogus_schema None None.

Definition omar_example : FewShotExample :=
  mkFewShotExample "Omar turned 7"
    (JObj (<["name" := JStr "Omar"]> (<["age" := JNum 7]> ∅))).

(** A deployment whose model answers with a value that is no person. *)
Definition careless_world : World :=
  mkWorld sample_metaschema_error (λ _ _, inr (JNum 7)) sample_registry.

(** A deployment whose model client fails. *)
Definition failing_world : World :=
  mkWorld sample_metaschema_error
    (λ _ _, inl (UpstreamError "rate limit exceeded")) sample_registry.

(** A deployment that stores, under the identifier 1, an extractor whose
    schema is not valid, and whose model client fails. *)
Definition stale_registry (id : UUID) : option Extractor :=
  match id with
  | 1%N => Some (mkExtractor 1%N bogus_schema (Some "Be brief.") [])
  | _ => None
  end.

Definition stale_world : World :=
  mkWorld sample_metaschema_error
    (λ _ _, inl (UpstreamError "rate limit exceeded")) stale_registry.

(** ** How the operations evaluate *)

Ltac unfold_M :=
  unfold try_except, mbind, M_bind, mret, M_ret, log, raise.

(** Membership of a call in an explicit log, by cases on its position. *)
Ltac logged_call :=
  let Hin := fresh "Hin" in
  intros Hin;
  repeat (apply elem_of_cons in Hin as [Hin|Hin]; [by simplify_eq|]);
  by apply elem_of_nil in Hin.

Section Evaluation.

Context (W : World).

Lemma function_descriptor_converted (s : Dict) (tr : trace) :
  convert_json_schema_to_openai_schema s tr
  = (inr (function_descriptor s), tr ++ [EvConvert s]).
Proof. reflexivity. Qed.

Lemma extraction_runnable_valid (req : ExtractRequest) (tr : trace) :
  metaschema_error W (json_schema req) = None →
  extraction_runnable W req tr
  = (match llm W [function_descriptor (json_schema req)] (request_messages req) with
     | inl e => inl e
     | inr arguments => inr (mkExtractResponse arguments)
     end,
     tr ++ pipeline_calls req).
Proof.
  intros Hvalid.
  unfold extraction_runnable, pipeline_calls, request_messages. unfold_M.
  simpl. unfold_M. rewrite Hvalid. simpl.
  rewrite <- !app_assoc. simpl.
  destruct (llm W _ _); reflexivity.
Qed.

Lemma extraction_runnable_invalid (req : ExtractRequest) (message : string)
    (tr : trace) :
  metaschema_error W (json_schema req) = Some message →
  extraction_runnable W req tr
  = (inl (SchemaError message), tr ++ [EvCheckSchema (json_schema req)]).
Proof.
  intros Hinvalid.
  unfold extraction_runnable. unfold_M. simpl. unfold_M. rewrite Hinvalid.
  reflexivity.
Qed.

(** The handler of [extraction_runnable] does turn a [ValidationError] into
    the response of status 422. *)
Lemma ValidationError_handled (message : string) (tr : trace) :
  try_except (raise (ValidationError message)) as_ValidationError
    (λ message, raise (A:=unit)
                  (HTTPException 422 ("Invalid schema: " +:+ message))) tr
  = (inl (SchemaInvalid message), tr).
Proof. reflexivity. Qed.

Lemma validate_json_schema_valid (s : Dict) (tr : trace) :
  metaschema_error W s = None →
  validate_json_schema W s tr = (inr tt, tr ++ [EvCheckSchema s]).
Proof.
  intros Hvalid.
  unfold validate_json_schema. unfold_M. simpl. unfold_M.
  rewrite Hvalid. reflexivity.
Qed.

Lemma validate_json_schema_invalid (s : Dict) (message : string) (tr : trace) :
  metaschema_error W s = Some message →
  validate_json_schema W s tr
  = (inl (SchemaInvalid message), tr ++ [EvCheckSchema s]).
Proof.
  intros Hinvalid.
  unfold validate_json_schema. unfold_M. simpl. unfold_M.
  rewrite Hinvalid. reflexivity.
Qed.

End Evaluation.

(** ** The endpoint of stored extractors *)

Section ExistingExtractor.

Context (W : World).

Lemma extract_using_existing_extractor_found (req : ExtractFromFileRequest)
    (ex : Extractor) :
  registry W (extractor_id req) = Some ex →
  run (extract_using_existing_extractor W req)
  = (match stored_examples ex with
     | [] => inr (mkExtractResponse (JStr "placeholder"))
     | _ :: _ => inl AssertionError
     end,
     [EvQuery (extractor_id req)]).
Proof.
  intros Hfound.
  unfold run, extract_using_existing_extractor, mbind, M_bind. simpl.
  rewrite Hfound.
  destruct (stored_examples ex); reflexivity.
Qed.

(** C5: when the identifier of a call to [/extract] resolves to no stored
    extractor, the call fails with the not-found error of status 404, which
    is not the schema-invalid error, and the only collaborator call made is
    the registry query: no schema check, no prompt, no conversion and no
    model call. *)
Theorem extractor_not_found (req : ExtractFromFileRequest) :
  registry W (extractor_id req) = None →
  ∃ e tr,
    run (extract_using_existing_extractor W req) = (inl e, tr) ∧
    e = HTTPException 404 "Extractor not found." ∧
    is_ExtractorNotFound e = true ∧
    is_SchemaInvalid e = false ∧
    tr = [EvQuery (extractor_id req)] ∧
    calls is_check_schema tr = 0 ∧
    calls is_convert tr = 0 ∧
    calls is_prompt tr = 0 ∧
    calls is_invoke tr = 0.
Proof.
  intros Hnone.
  exists (HTTPException 404 "Extractor not found."), [EvQuery (extractor_id req)].
  split.
  - unfold run, extract_using_existing_extractor, mbind, M_bind. simpl.
    rewrite Hnone. reflexivity.
  - repeat split; reflexivity.
Qed.

(** C9: when the identifier resolves to a stored extractor whose examples
    are not the empty list, the call fails with an assertion error and
    returns no response; a call that returns a response had the empty list
    of examples. *)
Theorem stored_examples_asserted_empty (req : ExtractFromFileRequest)
    (ex : Extractor) :
  registry W (extractor_id req) = Some ex →
  (stored_examples ex ≠ [] →
   run (extract_using_existing_extractor W req)
   = (inl AssertionError, [EvQuery (extractor_id req)])) ∧
  (∀ resp tr,
     run (extract_using_existing_extractor W req) = (inr resp, tr) →
     stored_examples ex = []).
Proof.
  intros Hfound.
  rewrite (extract_using_existing_extractor_found req ex Hfound).
  destruct (stored_examples ex) as [|x l]; split; try done.
Qed.

End ExistingExtractor.

Lemma extractor_not_found_sample :
  registry sample_world 7%N = None ∧
  ∃ e tr,
    run (extract_using_existing_extractor sample_world
           (mkExtractFromFileRequest 7%N "John is 30")) = (inl e, tr) ∧
    e = HTTPException 404 "Extractor not found." ∧
    is_ExtractorNotFound e = true ∧
    is_SchemaInvalid e = false ∧
    tr = [EvQuery 7%N] ∧
    calls is_check_schema tr = 0 ∧
    calls is_convert tr = 0 ∧
    calls is_prompt tr = 0 ∧
    calls is_invoke tr = 0.
Proof.
  split; [reflexivity|].
  apply (extractor_not_found sample_world (mkExtractFromFileRequest 7%N "John is 30")).
  reflexivity.
Defined.

Lemma stored_examples_asserted_empty_sample :
  registry sample_world 2%N
  = Some (mkExtractor 2%N person_schema None [jane_example]) ∧
  run (extract_using_existing_extractor sample_world
         (mkExtractFromFileRequest 2%N "John is 30"))
  = (inl AssertionError, [EvQuery 2%N]).
Proof.
  split; [reflexivity|].
  apply (stored_examples_asserted_empty sample_world
           (mkExtractFromFileRequest 2%N "John is 30")
           (mkExtractor 2%N person_schema None [jane_example])).
  - reflexivity.
  - simpl. discriminate.
Defined.

(** C2: evaluation at a stored extractor with a valid schema and no
    examples.  The endpoint answers with the fixed string [placeholder]
    after the registry query alone, while the chain of [/extract_text], run
    on the stored schema, instructions and examples, validates, builds the
    prompt, converts, calls the model and answers with its arguments. *)
Theorem existing_extractor_placeholder :
  registry sample_world 1%N = Some (mkExtractor 1%N person_schema None []) ∧
  run (extract_using_existing_extractor sample_world
         (mkExtractFromFileRequest 1%N "John is 30"))
  = (inr (mkExtractResponse (JStr "placeholder")), [EvQuery 1%N]) ∧
  run (extraction_runnable sample_world
         (mkExtractRequest "John is 30" person_schema None (Some [])))
  = (inr (mkExtractResponse john),
     pipeline_calls
       (mkExtractRequest "John is 30" person_schema None (Some []))) ∧
  JStr "placeholder" ≠ john.
Proof. repeat split; try reflexivity. discriminate. Qed.

(** ** The extraction chain *)

Section Chain.

Context (W : World).

(** A schema the validator rejects stops the chain at the schema check, with
    the error of the validator itself: the handler selects
    [ValidationError], and the check raises [SchemaError]. *)
Lemma extraction_runnable_rejects (req : ExtractRequest) (message : string) :
  metaschema_error W (json_schema req) = Some message →
  ∃ e tr,
    run (extraction_runnable W req) = (inl e, tr) ∧
    e = SchemaError message ∧
    is_SchemaInvalid e = false ∧
    calls is_invoke tr = 0.
Proof.
  intros Hinvalid.
  exists (SchemaError message), [EvCheckSchema (json_schema req)].
  split; [|done].
  apply (extraction_runnable_invalid W req message [] Hinvalid).
Qed.

(** A response comes from a valid schema and an answer of the model. *)
Lemma extraction_runnable_inr (req : ExtractRequest) (resp : ExtractResponse)
    (tr : trace) :
  run (extraction_runnable W req) = (inr resp, tr) →
  metaschema_error W (json_schema req) = None ∧
  llm W [function_descriptor (json_schema req)] (request_messages req)
  = inr (extracted resp) ∧
  tr = pipeline_calls req.
Proof.
  unfold run. intros Hrun.
  destruct (metaschema_error W (json_schema req)) as [message|] eqn:Hschema.
  - rewrite (extraction_runnable_invalid W req message [] Hschema) in Hrun.
    discriminate.
  - rewrite (extraction_runnable_valid W req [] Hschema) in Hrun.
    destruct (llm W _ _) as [e|arguments]; [discriminate|].
    destruct resp as [v]. simpl. by simplify_eq.
Qed.

(** C3: the value in the response of a successful invocation of
    [extraction_runnable] is the arguments the model answered with, as they
    are.  The calls of the invocation are the schema check (on the schema of
    the request), the prompt, the conversion and the model call, in this
    order: nothing runs after the model call, and the one validation is not
    on the extracted value. *)
Theorem extracted_is_model_answer (req : ExtractRequest)
    (resp : ExtractResponse) (tr : trace) :
  run (extraction_runnable W req) = (inr resp, tr) →
  llm W [function_descriptor (json_schema req)] (request_messages req)
  = inr (extracted resp) ∧
  tr = [EvCheckSchema (json_schema req);
        EvPrompt (instructions req) (examples req)
          (schema_title (json_schema req));
        EvConvert (json_schema req);
        EvInvoke [function_descriptor (json_schema req)]
          (request_messages req)] ∧
  last tr = Some (EvInvoke [function_descriptor (json_schema req)]
                    (request_messages req)) ∧
  calls is_check_schema tr = 1 ∧
  calls is_invoke tr = 1.
Proof.
  intros Hrun.
  destruct (extraction_runnable_inr req resp tr Hrun) as (_ & Hllm & ->).
  repeat split; done.
Qed.

(** Whenever the schema is valid and the model answers, the invocation does
    return, with that answer. *)
Lemma extraction_runnable_returns (req : ExtractRequest) (arguments : json) :
  metaschema_error W (json_schema req) = None →
  llm W [function_descriptor (json_schema req)] (request_messages req)
  = inr arguments →
  run (extraction_runnable W req)
  = (inr (mkExtractResponse arguments), pipeline_calls req).
Proof.
  intros Hvalid Hllm. unfold run.
  rewrite (extraction_runnable_valid W req [] Hvalid), Hllm. reflexivity.
Qed.

(** C6: for a schema the chain accepts, the name it derives, which is the
    name handed to the prompt builder, is the [title] of the schema when
    the schema has one, and the empty string when it has none. *)
Theorem name_is_title (req : ExtractRequest) (outcome : exn + ExtractResponse)
    (tr : trace) :
  metaschema_error W (json_schema req) = None →
  run (extraction_runnable W req) = (outcome, tr) →
  ∃ name,
    tr !! 1 = Some (EvPrompt (instructions req) (examples req) name) ∧
    name = schema_title (json_schema req) ∧
    (∀ title, json_schema req !! "title" = Some title → name = title) ∧
    (json_schema req !! "title" = None → name = JStr EmptyString).
Proof.
  intros Hvalid Hrun. unfold run in Hrun.
  rewrite (extraction_runnable_valid W req [] Hvalid) in Hrun.
  exists (schema_title (json_schema req)).
  simplify_eq. unfold schema_title.
  repeat split; try done; intros; by simplify_option_eq.
Qed.

End Chain.

(** A model answer that does not conform to the schema is returned all the
    same. *)
Example nonconforming_answer_returned :
  run (extraction_runnable careless_world person_request)
  = (inr (mkExtractResponse (JNum 7)), pipeline_calls person_request).
Proof. reflexivity. Qed.

Lemma extracted_is_model_answer_sample :
  run (extraction_runnable sample_world person_request)
  = (inr (mkExtractResponse john), pipeline_calls person_request) ∧
  llm sample_world [function_descriptor person_schema]
    (request_messages person_request)
  = inr john.
Proof.
  split; [reflexivity|].
  apply (extracted_is_model_answer sample_world person_request
           (mkExtractResponse john) (pipeline_calls person_request)).
  reflexivity.
Defined.

Lemma name_is_title_sample :
  (json_schema person_request !! "title" = Some (JStr "Person") ∧
   ∃ name,
     pipeline_calls person_request !! 1 = Some (EvPrompt None None name) ∧
     name = JStr "Person") ∧
  (untitled_schema !! "title" = None ∧
   ∃ name,
     pipeline_calls (mkExtractRequest "John is 30" untitled_schema None None)
       !! 1 = Some (EvPrompt None None name) ∧
     name = JStr EmptyString).
Proof.
  split; (split; [reflexivity|]).
  - destruct (name_is_title sample_world person_request
                (inr (mkExtractResponse john)) (pipeline_calls person_request))
      as (name & Hev & _ & Htitle & _); [reflexivity..|].
    exists name. split; [exact Hev|]. apply Htitle. reflexivity.
  - destruct (name_is_title sample_world
                (mkExtractRequest "John is 30" untitled_schema None None)
                (inr (mkExtractResponse john))
                (pipeline_calls
                   (mkExtractRequest "John is 30" untitled_schema None None)))
      as (name & Hev & _ & _ & Hnone); [reflexivity..|].
    exists name. split; [exact Hev|]. apply Hnone. reflexivity.
Defined.

(** ** Construction of requests and the route [/extract_text] *)

Section Route.

Context (W : World).

Lemma ExtractRequest_init_outcome (text : string) (s : Dict)
    (i : option string) (e : option (list FewShotExample)) (tr : trace) :
  ExtractRequest_init W text s i e tr
  = match validate_json_schema W s tr with
    | (inl err, tr') => (inl err, tr')
    | (inr _, tr') => (inr (mkExtractRequest text s i e), tr')
    end.
Proof.
  unfold ExtractRequest_init, validate_schema, mbind, M_bind, mret, M_ret.
  destruct (validate_json_schema W s tr) as [[err|u] tr']; reflexivity.
Qed.

(** C10: a request that was constructed carries a schema on which
    [validate_json_schema] returned; when that validator raises on the
    schema, the constructor raises the same error, and so does the route,
    with no call beyond those of the validator, so [extraction_runnable] is
    not entered. *)
Theorem constructed_request_validated (text : string) (s : Dict)
    (i : option string) (e : option (list FewShotExample)) :
  (∀ req tr,
     run (ExtractRequest_init W text s i e) = (inr req, tr) →
     json_schema req = s ∧ run (validate_json_schema W s) = (inr tt, tr)) ∧
  (∀ err tr,
     run (validate_json_schema W s) = (inl err, tr) →
     run (ExtractRequest_init W text s i e) = (inl err, tr) ∧
     run (extract_text W text s i e) = (inl err, tr)).
Proof.
  unfold run, extract_text, mbind, M_bind.
  rewrite ExtractRequest_init_outcome.
  destruct (validate_json_schema W s []) as [[err|[]] tr']; split;
    intros ? ? Heq; simplify_eq; done.
Qed.

Lemma extract_text_valid (text : string) (s : Dict) (i : option string)
    (e : option (list FewShotExample)) :
  metaschema_error W s = None →
  run (extract_text W text s i e)
  = (match llm W [function_descriptor s]
             (request_messages (mkExtractRequest text s i e)) with
     | inl err => inl err
     | inr arguments => inr (mkExtractResponse arguments)
     end,
     EvCheckSchema s :: pipeline_calls (mkExtractRequest text s i e)).
Proof.
  intros Hvalid. unfold run, extract_text, mbind, M_bind.
  rewrite ExtractRequest_init_outcome.
  rewrite (validate_json_schema_valid W s [] Hvalid).
  rewrite (extraction_runnable_valid W (mkExtractRequest text s i e) _ Hvalid).
  reflexivity.
Qed.

Lemma extract_text_invalid (text : string) (s : Dict) (i : option string)
    (e : option (list FewShotExample)) (message : string) :
  metaschema_error W s = Some message →
  run (extract_text W text s i e)
  = (inl (SchemaInvalid message), [EvCheckSchema s]).
Proof.
  intros Hinvalid. unfold run, extract_text, mbind, M_bind.
  rewrite ExtractRequest_init_outcome.
  rewrite (validate_json_schema_invalid W s message [] Hinvalid). reflexivity.
Qed.

(** A request that was constructed carries a schema the check accepts, so
    the chain is handed no rejected schema by the route. *)
Lemma constructed_request_schema_valid (text : string) (s : Dict)
    (i : option string) (e : option (list FewShotExample))
    (req : ExtractRequest) (tr : trace) :
  run (ExtractRequest_init W text s i e) = (inr req, tr) →
  metaschema_error W (json_schema req) = None.
Proof.
  unfold run. rewrite ExtractRequest_init_outcome. intros Hrun.
  destruct (metaschema_error W s) as [message|] eqn:Hschema.
  - rewrite (validate_json_schema_invalid W s message [] Hschema) in Hrun.
    discriminate.
  - rewrite (validate_json_schema_valid W s [] Hschema) in Hrun.
    by simplify_eq.
Qed.


Lemma checks_precede_conversion (req : ExtractRequest) :
  precedes is_check_schema is_convert
    (EvCheckSchema (json_schema req) :: pipeline_calls req).
Proof.
  intros i j a b Hi Hj Ha Hb.
  destruct i as [|[|i]].
  - destruct j as [|j]; [|lia]. simpl in Hj. by simplify_eq.
  - destruct j as [|[|j]]; [simpl in Hj; by simplify_eq..|lia].
  - destruct i as [|[|[|i]]]; simpl in Hi; by simplify_eq.
Qed.

(** C4, as the code has it: a request served end to end has its schema
    validated twice, once when the request is constructed and once at the
    start of [extraction_runnable]; the schema is converted once, and both
    validations come before the conversion. *)
Theorem schema_validated_twice (text : string) (s : Dict)
    (i : option string) (e : option (list FewShotExample))
    (resp : ExtractResponse) (tr : trace) :
  run (extract_text W text s i e) = (inr resp, tr) →
  calls is_check_schema tr = 2 ∧
  calls is_convert tr = 1 ∧
  precedes is_check_schema is_convert tr.
Proof.
  intros Hrun.
  destruct (metaschema_error W s) as [message|] eqn:Hschema.
  - rewrite (extract_text_invalid text s i e message Hschema) in Hrun.
    discriminate.
  - rewrite (extract_text_valid text s i e Hschema) in Hrun.
    injection Hrun as _ <-.
    repeat split; try reflexivity.
    apply (checks_precede_conversion (mkExtractRequest text s i e)).
Qed.

End Route.


Lemma constructed_request_validated_sample :
  (run (ExtractRequest_init sample_world "John is 30" person_schema None None)
   = (inr person_request, [EvCheckSchema person_schema]) ∧
   run (validate_json_schema sample_world person_schema)
   = (inr tt, [EvCheckSchema person_schema])) ∧
  (run (validate_json_schema sample_world bogus_schema)
   = (inl (SchemaInvalid "'bogus' is not valid under any of the given schemas"),
      [EvCheckSchema bogus_schema]) ∧
   run (extract_text sample_world "John is 30" bogus_schema None None)
   = (inl (SchemaInvalid "'bogus' is not valid under any of the given schemas"),
      [EvCheckSchema bogus_schema])).
Proof.
  split; (split; [reflexivity|]).
  - destruct (constructed_request_validated sample_world "John is 30"
                person_schema None None) as [Hconstructed _].
    apply (Hconstructed person_request). reflexivity.
  - destruct (constructed_request_validated sample_world "John is 30"
                bogus_schema None None) as [_ Hrejected].
    apply Hrejected. reflexivity.
Defined.

(** C4, as stated, fails: the request of a person, served end to end by
    the route, returns the answer of the model after two schema
    validations, not one. *)
Lemma schema_validated_once_fails :
  ∃ tr,
    run (extract_text sample_world "John is 30" person_schema None None)
    = (inr (mkExtractResponse john), tr) ∧
    tr = EvCheckSchema person_schema :: pipeline_calls person_request ∧
    calls is_check_schema tr = 2 ∧
    calls is_check_schema tr ≠ 1.
Proof.
  exists (EvCheckSchema person_schema :: pipeline_calls person_request).
  repeat split; try reflexivity. discriminate.
Qed.

Lemma schema_validated_twice_sample :
  run (extract_text sample_world "John is 30" person_schema None None)
  = (inr (mkExtractResponse john),
     EvCheckSchema person_schema :: pipeline_calls person_request) ∧
  calls is_check_schema
    (EvCheckSchema person_schema :: pipeline_calls person_request) = 2.
Proof.
  split; [reflexivity|].
  apply (schema_validated_twice sample_world "John is 30" person_schema
           None None (mkExtractResponse john)).
  reflexivity.
Defined.

(** ** The converter *)

Section Converter.

(** Every keyword of the schema other than the two consumed ones is kept in
    the parameters, with its value. *)
Lemma function_descriptor_keeps (s : Dict) (keyword : string) :
  keyword ≠ "title" → keyword ≠ "description" →
  fn_parameters (function_descriptor s) !! keyword = s !! keyword.
Proof.
  intros Htitle Hdescription. simpl.
  rewrite lookup_delete_ne by done. by rewrite lookup_delete_ne.
Qed.

Lemma function_descriptor_name (s : Dict) :
  fn_name (function_descriptor s) = schema_title s.
Proof. reflexivity. Qed.

End Converter.

(** ** The prompt builder *)

Section PromptBuilder.

Lemma exchanges_rendered (text : string) (exs : list FewShotExample)
    (rest : list message) :
  exchanges ((format_message text <$> (exs ≫= example_exchange)) ++ rest)
  = (as_exchange <$> exs) ++ exchanges rest.
Proof.
  induction exs as [|ex exs IH]; [reflexivity|].
  csimpl. by rewrite IH.
Qed.

Lemma length_rendered (exs : list FewShotExample) :
  length (exs ≫= example_exchange) = 2 * length exs.
Proof.
  induction exs as [|ex exs IH]; [reflexivity|].
  csimpl. rewrite IH. lia.
Qed.

Lemma format_prompt_template (i : option string)
    (exs : option (list FewShotExample)) (name : json) (text : string) :
  format_messages (prompt_template i exs name) text
  = SystemMessage extraction_directive i (nonempty_name name)
    :: (format_message text <$> (default [] exs ≫= example_exchange))
    ++ [HumanMessage text].
Proof.
  unfold format_messages, prompt_template.
  rewrite fmap_cons, fmap_app. reflexivity.
Qed.

Lemma exchanges_prompt_template (i : option string)
    (exs : list FewShotExample) (name : json) (text : string) :
  exchanges (format_messages (prompt_template i (Some exs) name) text)
  = as_exchange <$> exs.
Proof.
  rewrite format_prompt_template.
  change (exchanges (SystemMessage ?d ?a ?b :: ?l)) with (exchanges l).
  rewrite exchanges_rendered. simpl. apply app_nil_r.
Qed.

(** C8: building the prompt for N examples raises nothing, and the prompt
    holds exactly N example exchanges, which are the examples in the order
    given, and its last message is the input text; without examples (an
    empty list, or none at all) the prompt is the system message followed by
    the input text, with no exchange. *)
Theorem prompt_examples_in_order (i : option string)
    (exs : list FewShotExample) (name : json) (text : string) (tr : trace) :
  (∃ prompt,
     make_prompt_template i (Some exs) name tr
     = (inr prompt, tr ++ [EvPrompt i (Some exs) name]) ∧
     exchanges (format_messages prompt text) = as_exchange <$> exs ∧
     length (exchanges (format_messages prompt text)) = length exs ∧
     last (format_messages prompt text) = Some (HumanMessage text) ∧
     length (format_messages prompt text) = 2 * length exs + 2) ∧
  (∃ prompt,
     make_prompt_template i (Some []) name tr
     = (inr prompt, tr ++ [EvPrompt i (Some []) name]) ∧
     format_messages prompt text
     = [SystemMessage extraction_directive i (nonempty_name name);
        HumanMessage text]) ∧
  (∃ prompt,
     make_prompt_template i None name tr
     = (inr prompt, tr ++ [EvPrompt i None name]) ∧
     format_messages prompt text
     = [SystemMessage extraction_directive i (nonempty_name name);
        HumanMessage text]).
Proof.
  split; [|split; eexists; split; reflexivity].
  exists (prompt_template i (Some exs) name).
  split; [reflexivity|].
  rewrite exchanges_prompt_template.
  split; [reflexivity|].
  split; [apply length_fmap|].
  rewrite format_prompt_template.
  split; [by rewrite app_comm_cons, last_snoc|].
  simpl. rewrite length_app, length_fmap, length_rendered. simpl. lia.
Qed.

End PromptBuilder.

Example prompt_of_two_examples :
  format_messages
    (prompt_template (Some "Ages are whole numbers.")
       (Some [jane_example; omar_example]) (JStr "Person"))
    "John is 30"
  = [SystemMessage extraction_directive (Some "Ages are whole numbers.")
       (Some (JStr "Person"));
     HumanMessage "Jane is 41"; AIMessage (example_output jane_example);
     HumanMessage "Omar turned 7"; AIMessage (example_output omar_example);
     HumanMessage "John is 30"].
Proof. reflexivity. Qed.

(** ** Outcomes of the extraction chain *)

Section ChainOutcomes.

Context (W : World).

(** An invocation appends its calls to the log, and neither its outcome nor
    its calls depend on what the log held before. *)
Lemma extraction_runnable_frame (req : ExtractRequest) (tr : trace) :
  extraction_runnable W req tr
  = (fst (run (extraction_runnable W req)),
     tr ++ snd (run (extraction_runnable W req))).
Proof.
  unfold run.
  destruct (metaschema_error W (json_schema req)) as [message|] eqn:Hschema.
  - by rewrite !(extraction_runnable_invalid W req message _ Hschema).
  - by rewrite !(extraction_runnable_valid W req _ Hschema).
Qed.

(** When the schema is valid and the model client raises, the error leaves
    [extraction_runnable] as it is: nothing catches it, no value is put in
    its place, and the model was called once, with no second attempt. *)
Theorem model_failure_propagates (req : ExtractRequest) (e : exn) :
  metaschema_error W (json_schema req) = None →
  llm W [function_descriptor (json_schema req)] (request_messages req)
  = inl e →
  run (extraction_runnable W req) = (inl e, pipeline_calls req) ∧
  calls is_invoke (pipeline_calls req) = 1.
Proof.
  intros Hvalid Hllm. unfold run.
  rewrite (extraction_runnable_valid W req [] Hvalid), Hllm.
  split; reflexivity.
Qed.

(** An error that leaves [extraction_runnable] is either the error of the
    schema check, raised before any other call, or the error the model
    client raised: the chain raises nothing of its own. *)
Theorem failure_origin (req : ExtractRequest) (e : exn) (tr : trace) :
  run (extraction_runnable W req) = (inl e, tr) →
  (∃ message,
     metaschema_error W (json_schema req) = Some message ∧
     e = SchemaError message ∧
     tr = [EvCheckSchema (json_schema req)]) ∨
  (metaschema_error W (json_schema req) = None ∧
   llm W [function_descriptor (json_schema req)] (request_messages req)
   = inl e ∧
   tr = pipeline_calls req).
Proof.
  unfold run. intros Hrun.
  destruct (metaschema_error W (json_schema req)) as [message|] eqn:Hschema.
  - rewrite (extraction_runnable_invalid W req message [] Hschema) in Hrun.
    left. exists message. by simplify_eq.
  - rewrite (extraction_runnable_valid W req [] Hschema) in Hrun.
    right. destruct (llm W _ _) as [e'|arguments]; by simplify_eq.
Qed.

(** A schema the check rejects stops [extraction_runnable] at the check: the
    error carries the message of the validator, and no prompt is built,
    nothing is converted and the model is not called. *)
Theorem rejected_schema_stops_chain (req : ExtractRequest) (message : string) :
  metaschema_error W (json_schema req) = Some message →
  ∃ tr,
    run (extraction_runnable W req) = (inl (SchemaError message), tr) ∧
    tr = [EvCheckSchema (json_schema req)] ∧
    calls is_prompt tr = 0 ∧
    calls is_convert tr = 0 ∧
    calls is_invoke tr = 0.
Proof.
  intros Hinvalid. exists [EvCheckSchema (json_schema req)].
  split; [|done].
  apply (extraction_runnable_invalid W req message [] Hinvalid).
Qed.

(** Whatever the outcome, one invocation checks the schema exactly once,
    never queries the registry, and calls the model at most once; it builds
    the prompt, converts and calls the model exactly when the schema is
    valid. *)
Theorem chain_call_counts (req : ExtractRequest) :
  calls is_check_schema (snd (run (extraction_runnable W req))) = 1 ∧
  calls is_query (snd (run (extraction_runnable W req))) = 0 ∧
  calls is_invoke (snd (run (extraction_runnable W req))) ≤ 1 ∧
  (calls is_invoke (snd (run (extraction_runnable W req))) = 1
   ↔ metaschema_error W (json_schema req) = None) ∧
  calls is_prompt (snd (run (extraction_runnable W req)))
  = calls is_invoke (snd (run (extraction_runnable W req))) ∧
  calls is_convert (snd (run (extraction_runnable W req)))
  = calls is_invoke (snd (run (extraction_runnable W req))).
Proof.
  unfold run.
  destruct (metaschema_error W (json_schema req)) as [message|] eqn:Hschema.
  - rewrite (extraction_runnable_invalid W req message [] Hschema).
    repeat split; try done; compute; lia.
  - rewrite (extraction_runnable_valid W req [] Hschema).
    repeat split; try done; compute; lia.
Qed.

(** The schema that is checked and the schema that is converted are both the
    schema of the request; the prompt is built from the instructions and the
    examples of the request and the title of that schema; and the model is
    offered a single function, the converted one. *)
Theorem chain_call_arguments (req : ExtractRequest) :
  (∀ s, EvCheckSchema s ∈ snd (run (extraction_runnable W req)) →
        s = json_schema req) ∧
  (∀ s, EvConvert s ∈ snd (run (extraction_runnable W req)) →
        s = json_schema req) ∧
  (∀ i e name,
     EvPrompt i e name ∈ snd (run (extraction_runnable W req)) →
     i = instructions req ∧ e = examples req ∧
     name = schema_title (json_schema req)) ∧
  (∀ functions messages,
     EvInvoke functions messages ∈ snd (run (extraction_runnable W req)) →
     functions = [function_descriptor (json_schema req)] ∧
     length functions = 1).
Proof.
  unfold run.
  destruct (metaschema_error W (json_schema req)) as [message|] eqn:Hschema.
  - rewrite (extraction_runnable_invalid W req message [] Hschema). simpl.
    split; [|split; [|split]]; intros *; logged_call.
  - rewrite (extraction_runnable_valid W req [] Hschema). simpl.
    unfold pipeline_calls.
    split; [|split; [|split]]; intros *; logged_call.
Qed.

(** Nothing is kept between invocations: serving a request again after it
    was served makes every call again, the schema check included. *)
Theorem repeated_invocation_repeats_calls (req : ExtractRequest)
    (resp : ExtractResponse) (tr : trace) :
  run (extraction_runnable W req) = (inr resp, tr) →
  snd (run (extraction_runnable W req ;; extraction_runnable W req))
  = tr ++ tr ∧
  calls is_check_schema (tr ++ tr) = 2 ∧
  calls is_convert (tr ++ tr) = 2 ∧
  calls is_invoke (tr ++ tr) = 2.
Proof.
  intros Hrun.
  destruct (extraction_runnable_inr W req resp tr Hrun) as (_ & _ & Htr).
  split; [|subst tr; done].
  unfold run, mbind, M_bind. unfold run in Hrun. rewrite Hrun.
  rewrite extraction_runnable_frame. unfold run. rewrite Hrun. reflexivity.
Qed.

End ChainOutcomes.

Lemma model_failure_propagates_sample :
  metaschema_error failing_world (json_schema person_request) = None ∧
  run (extraction_runnable failing_world person_request)
  = (inl (UpstreamError "rate limit exceeded"), pipeline_calls person_request).
Proof.
  split; [reflexivity|].
  apply (model_failure_propagates failing_world person_request
           (UpstreamError "rate limit exceeded")); reflexivity.
Defined.

Lemma failure_origin_sample :
  run (extraction_runnable failing_world person_request)
  = (inl (UpstreamError "rate limit exceeded"), pipeline_calls person_request) ∧
  ((∃ message,
      metaschema_error failing_world (json_schema person_request)
      = Some message ∧
      UpstreamError "rate limit exceeded" = SchemaError message ∧
      pipeline_calls person_request
      = [EvCheckSchema (json_schema person_request)]) ∨
   (metaschema_error failing_world (json_schema person_request) = None ∧
    llm failing_world [function_descriptor (json_schema person_request)]
      (request_messages person_request)
    = inl (UpstreamError "rate limit exceeded") ∧
    pipeline_calls person_request = pipeline_calls person_request)).
Proof.
  split; [reflexivity|].
  apply (failure_origin failing_world person_request
           (UpstreamError "rate limit exceeded")
           (pipeline_calls person_request)).
  reflexivity.
Defined.

Lemma rejected_schema_stops_chain_sample :
  metaschema_error sample_world (json_schema bogus_request)
  = Some "'bogus' is not valid under any of the given schemas" ∧
  ∃ tr,
    run (extraction_runnable sample_world bogus_request)
    = (inl (SchemaError "'bogus' is not valid under any of the given schemas"),
       tr) ∧
    tr = [EvCheckSchema (json_schema bogus_request)] ∧
    calls is_prompt tr = 0 ∧
    calls is_convert tr = 0 ∧
    calls is_invoke tr = 0.
Proof.
  split; [reflexivity|].
  apply (rejected_schema_stops_chain sample_world bogus_request).
  reflexivity.
Defined.

Lemma chain_call_counts_sample :
  metaschema_error sample_world (json_schema person_request) = None ∧
  calls is_invoke (snd (run (extraction_runnable sample_world person_request)))
  = 1 ∧
  calls is_invoke (snd (run (extraction_runnable sample_world bogus_request)))
  ≤ 1.
Proof.
  split; [reflexivity|]. split.
  - destruct (chain_call_counts sample_world person_request)
      as (_ & _ & _ & Hvalid & _).
    apply Hvalid. reflexivity.
  - destruct (chain_call_counts sample_world bogus_request)
      as (_ & _ & Hbound & _).
    exact Hbound.
Defined.

Lemma chain_call_arguments_sample :
  EvConvert person_schema
  ∈ snd (run (extraction_runnable sample_world person_request)) ∧
  person_schema = json_schema person_request.
Proof.
  assert (Hin : EvConvert person_schema
                ∈ snd (run (extraction_runnable sample_world person_request))).
  { change (EvConvert person_schema ∈ pipeline_calls person_request).
    unfold pipeline_calls. rewrite !elem_of_cons. right; right; left.
    reflexivity. }
  split; [exact Hin|].
  destruct (chain_call_arguments sample_world person_request)
    as (_ & Hconvert & _).
  apply Hconvert. exact Hin.
Defined.

Lemma repeated_invocation_repeats_calls_sample :
  run (extraction_runnable sample_world person_request)
  = (inr (mkExtractResponse john), pipeline_calls person_request) ∧
  snd (run (extraction_runnable sample_world person_request ;;
            extraction_runnable sample_world person_request))
  = pipeline_calls person_request ++ pipeline_calls person_request.
Proof.
  split; [reflexivity|].
  apply (repeated_invocation_repeats_calls sample_world person_request
           (mkExtractResponse john)).
  reflexivity.
Defined.

(** ** Outcomes of the endpoint of stored extractors *)

Section ExistingExtractorOutcomes.

(** A call to [/extract] makes one registry query and no other call, and ends
    in one of three ways: the response [placeholder], for a stored extractor
    without examples; the error of status 404, for an unknown identifier;
    an assertion error, for a stored extractor with examples. *)
Theorem existing_extractor_outcomes (W : World)
    (req : ExtractFromFileRequest) :
  ∃ outcome,
    run (extract_using_existing_extractor W req)
    = (outcome, [EvQuery (extractor_id req)]) ∧
    ((outcome = inr (mkExtractResponse (JStr "placeholder")) ∧
      ∃ ex, registry W (extractor_id req) = Some ex ∧ stored_examples ex = [])
     ∨ (outcome = inl (HTTPException 404 "Extractor not found.") ∧
        registry W (extractor_id req) = None)
     ∨ (outcome = inl AssertionError ∧
        ∃ ex, registry W (extractor_id req) = Some ex ∧
              stored_examples ex ≠ [])).
Proof.
  destruct (registry W (extractor_id req)) as [ex|] eqn:Hregistry.
  - rewrite (extract_using_existing_extractor_found W req ex Hregistry).
    destruct (stored_examples ex) as [|x l] eqn:Hexamples; eexists;
      (split; [reflexivity|]).
    + left. split; [reflexivity|]. by exists ex.
    + right; right. split; [reflexivity|]. exists ex. by rewrite Hexamples.
  - eexists. split; [|right; left; split; reflexivity].
    unfold run, extract_using_existing_extractor, mbind, M_bind. simpl.
    by rewrite Hregistry.
Qed.

(** The outcome of a call to [/extract] depends on nothing but whether the
    identifier is stored and which examples are stored with it: the text of
    the request, the stored schema and instructions, the schema validator
    and the model have no influence on it. *)
Theorem existing_extractor_ignores (W1 W2 : World)
    (req1 req2 : ExtractFromFileRequest) :
  extractor_id req1 = extractor_id req2 →
  stored_examples <$> registry W1 (extractor_id req1)
  = stored_examples <$> registry W2 (extractor_id req2) →
  run (extract_using_existing_extractor W1 req1)
  = run (extract_using_existing_extractor W2 req2).
Proof.
  intros Hid Hexamples.
  destruct (registry W1 (extractor_id req1)) as [ex1|] eqn:H1;
    destruct (registry W2 (extractor_id req2)) as [ex2|] eqn:H2;
    simplify_eq/=.
  - rewrite (extract_using_existing_extractor_found W1 req1 ex1 H1).
    rewrite (extract_using_existing_extractor_found W2 req2 ex2 H2).
    by rewrite Hexamples, Hid.
  - unfold run, extract_using_existing_extractor, mbind, M_bind. simpl.
    by rewrite H1, H2, Hid.
Qed.

End ExistingExtractorOutcomes.

Lemma existing_extractor_ignores_sample :
  run (extract_using_existing_extractor sample_world
         (mkExtractFromFileRequest 1%N "John is 30"))
  = run (extract_using_existing_extractor stale_world
           (mkExtractFromFileRequest 1%N "Omar turned 7")).
Proof.
  apply (existing_extractor_ignores sample_world stale_world
           (mkExtractFromFileRequest 1%N "John is 30")
           (mkExtractFromFileRequest 1%N "Omar turned 7")); reflexivity.
Defined.

(** ** Fields of a constructed request *)

(** A request that was constructed holds the text, the schema, the
    instructions and the examples it was constructed from: the field
    validator hands the schema back as it received it. *)
Theorem constructed_request_fields (W : World) (text : string) (s : Dict)
    (i : option string) (e : option (list FewShotExample))
    (req : ExtractRequest) (tr : trace) :
  run (ExtractRequest_init W text s i e) = (inr req, tr) →
  req = mkExtractRequest text s i e.
Proof.
  unfold run. rewrite ExtractRequest_init_outcome.
  destruct (validate_json_schema W s []) as [[err|u] tr']; intros Hrun;
    by simplify_eq.
Qed.

Lemma constructed_request_fields_sample :
  run (ExtractRequest_init sample_world "John is 30" person_schema
         (Some "Be brief.") (Some [jane_example]))
  = (inr (mkExtractRequest "John is 30" person_schema (Some "Be brief.")
            (Some [jane_example])),
     [EvCheckSchema person_schema]) ∧
  mkExtractRequest "John is 30" person_schema (Some "Be brief.")
    (Some [jane_example])
  = mkExtractRequest "John is 30" person_schema (Some "Be brief.")
      (Some [jane_example]).
Proof.
  split; [reflexivity|].
  apply (constructed_request_fields sample_world "John is 30" person_schema
           (Some "Be brief.") (Some [jane_example]) _
           [EvCheckSchema person_schema]).
  reflexivity.
Defined.
